(** * useForm: the form-state controller of src/hooks/useForm.ts

    A shallow embedding of the hook.  JavaScript objects used as maps
    ([values], [errors], [touched]) are finite maps keyed by field name;
    React's state cells are one record that the setters update in order;
    an [async] handler is run here without interleaving, as a sequence of
    setter calls that either returns or throws.  A handler closes over the
    state of the render that created it ([render] below) and writes to the
    live cells; the options are the same on every render.  Every object is
    a plain one, so a read [o[k]] of a key the object does not have falls
    through to [Object.prototype].  The validation libraries (yup, zod) and
    the engine built-ins ([Number], [Date]) are not part of the repository
    and are taken as parameters. *)

From Stdlib Require Import PrimFloat.
From stdpp Require Import gmap strings list fin_maps pretty.

Open Scope string_scope.

(** ** Values *)

(** A [File] of a [FileList]; only its identity matters here. *)
Record File := mkFile { file_name : string }.

(** The JavaScript values a field can hold.  A number is an IEEE double;
    [VInherited k] is the property [k] of [Object.prototype] (a built-in
    function, or the prototype object itself for ["__proto__"]), which is
    what reading [k] off an object without that key gives. *)
Inductive Value :=
| VUndefined
| VNull
| VString (s : string)
| VBool (b : bool)
| VNumber (n : float)
| VFile (f : File)
| VFiles (fs : list File)
| VInherited (k : string).

(** [values], [errors] and [touched].  An entry of [errors] can hold
    [undefined]: [Some None] is a key mapped to [undefined], [None] is a
    key that is not there. *)
Abbreviation FormValues := (gmap string Value).
Abbreviation FormErrors := (gmap string (option string)).
Abbreviation FormTouched := (gmap string bool).

(** [Object.keys(o)]: the order is not modelled (no caller depends on it). *)
Definition Object_keys {A} (o : gmap string A) : list string :=
  (map_to_list o).*1.

(** The property names of [Object.prototype]. *)
Definition Object_prototype_keys : list string :=
  ["constructor"; "toString"; "toLocaleString"; "valueOf"; "hasOwnProperty";
   "isPrototypeOf"; "propertyIsEnumerable"; "__proto__"; "__defineGetter__";
   "__defineSetter__"; "__lookupGetter__"; "__lookupSetter__"].

(** What a read [o[k]] finds: the object's own property, a property of
    [Object.prototype], or nothing ([undefined]). *)
Inductive Read (A : Type) :=
| Got (a : A)
| Inherited (k : string)
| Undefined.
Arguments Got {A} a.
Arguments Inherited {A} k.
Arguments Undefined {A}.

(** [o[k]] on a plain object. *)
Definition read {A} (o : gmap string A) (k : string) : Read A :=
  match o !! k with
  | Some a => Got a
  | None => if bool_decide (k ∈ Object_prototype_keys) then Inherited k else Undefined
  end.

(** [String(v)] on a property of [Object.prototype], as V8 prints a
    built-in function. *)
Definition inherited_text (k : string) : string :=
  if String.eqb k "__proto__" then "[object Object]"
  else "function " ++ (if String.eqb k "constructor" then "Object" else k)
       ++ "() { [native code] }".

(** [o[k]] on a value bag. *)
Definition get_value (o : FormValues) (k : string) : Value :=
  match read o k with
  | Got v => v
  | Inherited k' => VInherited k'
  | Undefined => VUndefined
  end.

(** ** Thrown values *)

(** An element of a zod issue path: a key or an array index. *)
Inductive PathElem :=
| PKey (k : string)
| PIndex (i : N).

Record ZodIssue := mkIssue { issue_path : list PathElem; issue_message : string }.

(** An element of [ValidationError.inner]; yup's [path] is optional. *)
Record YupInner := mkInner { inner_path : option string; inner_message : string }.

(** What a [catch] clause can observe of the value it caught: the three
    [instanceof] tests of the hook and the properties it reads. *)
Record Thrown := mkThrown {
  instanceof_ValidationError : bool;
  instanceof_Error : bool;
  instanceof_ZodError : bool;
  message : string;
  issues : list ZodIssue;
  inner : list YupInner
}.

(** [new Error(msg)]. *)
Definition new_Error (msg : string) : Thrown :=
  mkThrown false true false msg [] [].

(** yup: [class ValidationError extends Error]. *)
Definition new_ValidationError (msg : string) (inn : list YupInner) : Thrown :=
  mkThrown true true false msg [] inn.

(** zod: [class ZodError extends Error]; its [message] is the JSON text of
    the issue list, passed here as [json]. *)
Definition new_ZodError (json : string) (iss : list ZodIssue) : Thrown :=
  mkThrown false true true json iss [].

(** A thrown value that is no [Error] at all ([throw "x"], [throw 42]). *)
Definition thrown_non_Error : Thrown :=
  mkThrown false false false "" [] [].

(** The result of an awaited call. *)
Inductive Result (A : Type) :=
| Ok (a : A)
| Throw (e : Thrown).
Arguments Ok {A} a.
Arguments Throw {A} e.

(** ** The validator *)

(** [validationSchema]: a yup [Schema] (with [validateAt] and [validate]),
    a zod [ZodSchema] (with [parseAsync]), or a plain function. *)
Inductive ValidationSchema :=
| YupSchema (validateAt : string -> FormValues -> Result unit)
            (validate : FormValues -> Result unit)
| ZodSchema (parseAsync : FormValues -> Result unit)
| FunctionSchema (fn : FormValues -> Result FormErrors).

(** JavaScript truthiness of a [string | undefined]. *)
Definition truthy (m : option string) : bool :=
  match m with
  | Some s => negb (String.eqb s "")
  | None => false
  end.

(** [issue.path.includes(field)]: strict equality, so only a key matches. *)
Definition path_includes (p : list PathElem) (field : string) : bool :=
  existsb (fun el => match el with
                     | PKey k => String.eqb k field
                     | PIndex _ => false
                     end) p.

(** [error.issues.find(issue => issue.path.includes(field))]. *)
Definition find_issue (iss : list ZodIssue) (field : string) : option ZodIssue :=
  List.find (fun issue => path_includes (issue_path issue) field) iss.

(** The [catch] clause of [validateField]. *)
Definition validateField_catch (field : string) (error : Thrown) : string :=
  if instanceof_ValidationError error || instanceof_Error error then
    message error
  else if instanceof_ZodError error then
    match find_issue (issues error) field with
    | Some issue =>
        if truthy (Some (issue_message issue)) then issue_message issue
        else "Invalid value"
    | None => "Invalid value"
    end
  else "Invalid value".

(** The [try] block of [validateField]; [values] is the value bag of the
    render that created the callback. *)
Definition validateField_try (schema : ValidationSchema) (values : FormValues)
    (field : string) (value : Value) : Result unit :=
  match schema with
  | YupSchema validateAt _ => validateAt field {[ field := value ]}
  | ZodSchema parseAsync => parseAsync {[ field := value ]}
  | FunctionSchema fn =>
      match fn (<[ field := value ]> values) with
      | Ok validationErrors =>
          match read validationErrors field with
          | Got m => if truthy m then Throw (new_Error (default "" m)) else Ok tt
          | Inherited k => Throw (new_Error (inherited_text k))
          | Undefined => Ok tt
          end
      | Throw e => Throw e
      end
  end.

(** [validateField(field, value)]: [None] is [undefined]. *)
Definition validateField (validationSchema : option ValidationSchema)
    (values : FormValues) (field : string) (value : Value) : option string :=
  match validationSchema with
  | None => None
  | Some schema =>
      match validateField_try schema values field value with
      | Ok _ => None
      | Throw error => Some (validateField_catch field error)
      end
  end.

(** The property key that [acc[k] = ...] writes to: an absent path
    component is the key ["undefined"], an array index its decimal text. *)
Definition property_key (k : option PathElem) : string :=
  match k with
  | Some (PKey s) => s
  | Some (PIndex i) => pretty i
  | None => "undefined"
  end.

(** The assignment [acc[k] = v] of a string [v]: it adds or replaces the
    own property [k], except for ["__proto__"], where it runs the setter of
    [Object.prototype], which ignores a string. *)
Definition assign {A} (k : string) (v : A) (acc : gmap string A) : gmap string A :=
  if String.eqb k "__proto__" then acc else <[ k := v ]> acc.

(** The [catch] clause of [validateForm]: the two [reduce] calls. *)
Definition validateForm_catch (error : Thrown) : FormErrors :=
  if instanceof_ValidationError error then
    foldl (fun (acc : FormErrors) err =>
             assign (property_key (PKey <$> inner_path err))
                    (Some (inner_message err)) acc)
          ∅ (inner error)
  else if instanceof_ZodError error then
    foldl (fun (acc : FormErrors) issue =>
             assign (property_key (head (issue_path issue)))
                    (Some (issue_message issue)) acc)
          ∅ (issues error)
  else ∅.

(** [validateForm()], on the value bag of the render that created it. *)
Definition validateForm (validationSchema : option ValidationSchema)
    (values : FormValues) : FormErrors :=
  match validationSchema with
  | None => ∅
  | Some (YupSchema _ validate) =>
      match validate values with
      | Ok _ => ∅
      | Throw error => validateForm_catch error
      end
  | Some (ZodSchema parseAsync) =>
      match parseAsync values with
      | Ok _ => ∅
      | Throw error => validateForm_catch error
      end
  | Some (FunctionSchema fn) =>
      match fn values with
      | Ok validationErrors => validationErrors
      | Throw error => validateForm_catch error
      end
  end.

(** ** The state of the hook *)

(** The four [useState] cells. *)
Record FormState := mkFormState {
  values : FormValues;
  errors : FormErrors;
  touched : FormTouched;
  isSubmitting : bool
}.

(** A call the [onSubmit] callback makes on the form: one of the two
    capabilities it is handed, [resetForm] and [setSubmitting], or one of
    the point mutations [setFieldValue], [setFieldError] and
    [setFieldTouched], which it reaches through the value [useForm]
    returned.  (Calls of the event handlers from inside the callback are
    not represented.) *)
Inductive Action :=
| CallResetForm
| CallSetSubmitting (b : bool)
| CallSetFieldValue (field : string) (value : Value)
| CallSetFieldError (field : string) (error : string)
| CallSetFieldTouched (field : string) (isTouched : bool).

(** One run of the caller's [onSubmit]: the calls it makes on the form, in
    order, and whether it then returns or throws (rejects). *)
Record CallbackRun := mkRun {
  cb_actions : list Action;
  cb_result : Result unit
}.

(** The options of [useForm]. *)
Record UseFormOptions := mkOptions {
  initialValues : FormValues;
  validationSchema : option ValidationSchema;
  onSubmit : FormValues -> CallbackRun;
  validateOnChange : bool;
  validateOnBlur : bool
}.

(** The engine built-ins the hook calls: [Number(s)], and
    [new Date(s).toISOString()], which throws a [RangeError] on an invalid
    date. *)
Record Host := mkHost {
  Number : string -> float;
  Date_toISOString : string -> Result string
}.

(** The state cells together with a log of the value bags [onSubmit] was
    called with (oldest first). *)
Record World := mkWorld {
  state : FormState;
  submitted : list FormValues
}.

(** ** Handlers as state transformers that may throw *)

Definition M (A : Type) : Type := World -> Result A * World.

Definition ret {A} (a : A) : M A := fun w => (Ok a, w).

Definition bind {A B} (m : M A) (k : A -> M B) : M B :=
  fun w =>
    match m w with
    | (Ok a, w') => k a w'
    | (Throw e, w') => (Throw e, w')
    end.

Definition throw {A} (e : Thrown) : M A := fun w => (Throw e, w).

Declare Scope form_scope.
Delimit Scope form_scope with form.
Notation "x <- c1 ;; c2" := (bind c1 (fun x => c2))
  (at level 100, c1 at next level, right associativity) : form_scope.
Notation "c1 ;; c2" := (bind c1 (fun _ => c2))
  (at level 100, right associativity) : form_scope.
Open Scope form_scope.

Definition modify (f : FormState -> FormState) : M unit :=
  fun w => (Ok tt, mkWorld (f (state w)) (submitted w)).

(** The four setters, each taking an updater. *)
Definition setValues (f : FormValues -> FormValues) : M unit :=
  modify (fun s => mkFormState (f (values s)) (errors s) (touched s) (isSubmitting s)).

Definition setErrors (f : FormErrors -> FormErrors) : M unit :=
  modify (fun s => mkFormState (values s) (f (errors s)) (touched s) (isSubmitting s)).

Definition setTouched (f : FormTouched -> FormTouched) : M unit :=
  modify (fun s => mkFormState (values s) (errors s) (f (touched s)) (isSubmitting s)).

Definition setIsSubmitting (f : bool -> bool) : M unit :=
  modify (fun s => mkFormState (values s) (errors s) (touched s) (f (isSubmitting s))).

(** [resetForm()]. *)
Definition resetForm (opts : UseFormOptions) : M unit :=
  setValues (fun _ => initialValues opts) ;;
  setErrors (fun _ => ∅) ;;
  setTouched (fun _ => ∅) ;;
  setIsSubmitting (fun _ => false).

(** ** Change and blur notifications *)

(** [e.target] of a change or focus event: the properties the hook reads.
    [target_files] is [input.files], a [FileList] or [null]. *)
Record Target := mkTarget {
  target_name : string;
  target_value : string;
  target_type : string;
  target_checked : bool;
  target_files : option (list File)
}.

(** The [switch (type)] of [handleChange], which computes [fieldValue]. *)
Definition handleChange_fieldValue (host : Host) (target : Target) : Result Value :=
  let value := target_value target in
  if String.eqb (target_type target) "file" then
    let files := target_files target in
    Ok (if bool_decide (length <$> files = Some 1)
        then default VUndefined (VFile <$> (files ≫= head))
        else match files with
             | Some fs => VFiles fs
             | None => VNull
             end)
  else if String.eqb (target_type target) "checkbox" then
    Ok (VBool (target_checked target))
  else if String.eqb (target_type target) "date" then
    if negb (String.eqb value "") then
      match Date_toISOString host value with
      | Ok iso => Ok (VString iso)
      | Throw e => Throw e
      end
    else Ok VNull
  else if String.eqb (target_type target) "number" then
    Ok (if String.eqb value "" then VNull else VNumber (Number host value))
  else Ok (VString value).

(** [handleChange(e)]. *)
Definition handleChange (host : Host) (opts : UseFormOptions) (render : FormState)
    (target : Target) : M unit :=
  let name := target_name target in
  match handleChange_fieldValue host target with
  | Throw e => throw e
  | Ok fieldValue =>
      setValues (fun prev => <[ name := fieldValue ]> prev) ;;
      setTouched (fun prev => <[ name := true ]> prev) ;;
      if validateOnChange opts then
        let error :=
          validateField (validationSchema opts) (values render) name fieldValue in
        setErrors (fun prev => <[ name := error ]> prev)
      else ret tt
  end.

(** [handleBlur(e)]. *)
Definition handleBlur (opts : UseFormOptions) (render : FormState)
    (target : Target) : M unit :=
  let name := target_name target in
  setTouched (fun prev => <[ name := true ]> prev) ;;
  if validateOnBlur opts then
    let error :=
      validateField (validationSchema opts) (values render) name
                    (get_value (values render) name) in
    setErrors (fun prev => <[ name := error ]> prev)
  else ret tt.

(** [setFieldValue(field, value)]; the [then] continuation is run at once. *)
Definition setFieldValue (opts : UseFormOptions) (render : FormState)
    (field : string) (value : Value) : M unit :=
  setValues (fun prev => <[ field := value ]> prev) ;;
  if validateOnChange opts then
    let error := validateField (validationSchema opts) (values render) field value in
    setErrors (fun prev => <[ field := error ]> prev)
  else ret tt.

(** [setFieldError(field, error)]. *)
Definition setFieldError (field : string) (error : string) : M unit :=
  setErrors (fun prev => <[ field := Some error ]> prev).

(** [setFieldTouched(field, isTouched)]. *)
Definition setFieldTouched (field : string) (isTouched : bool) : M unit :=
  setTouched (fun prev => <[ field := isTouched ]> prev).

(** ** The submission sequencer *)

(** One call made by the callback; the point mutations are those of the
    render the callback closes over. *)
Definition perform (opts : UseFormOptions) (render : FormState) (a : Action) : M unit :=
  match a with
  | CallResetForm => resetForm opts
  | CallSetSubmitting b => setIsSubmitting (fun _ => b)
  | CallSetFieldValue field value => setFieldValue opts render field value
  | CallSetFieldError field error => setFieldError field error
  | CallSetFieldTouched field isTouched => setFieldTouched field isTouched
  end.

Fixpoint perform_all (opts : UseFormOptions) (render : FormState)
    (acts : list Action) : M unit :=
  match acts with
  | [] => ret tt
  | a :: rest => perform opts render a ;; perform_all opts render rest
  end.

(** [await onSubmit(values, { resetForm, setSubmitting })]. *)
Definition call_onSubmit (opts : UseFormOptions) (render : FormState)
    (vals : FormValues) : M unit :=
  (fun w => (Ok tt, mkWorld (state w) (submitted w ++ [vals]))) ;;
  perform_all opts render (cb_actions (onSubmit opts vals)) ;;
  match cb_result (onSubmit opts vals) with
  | Ok _ => ret tt
  | Throw e => throw e
  end.

(** The first part of [handleSubmit(e)], up to the [if]: it enters the
    submitting state, validates the form, stores the result and marks the
    declared fields touched.  [render] is the state of the render that
    created the callback, whose [values] it closes over;
    [e.preventDefault()] acts on the DOM event only. *)
Definition handleSubmit_validation (opts : UseFormOptions) (render : FormState)
  : M FormErrors :=
  setIsSubmitting (fun _ => true) ;;
  let validationErrors := validateForm (validationSchema opts) (values render) in
  setErrors (fun _ => validationErrors) ;;
  setTouched (fun _ =>
    foldl (fun (acc : FormTouched) key => <[ key := true ]> acc) ∅
          (Object_keys (initialValues opts))) ;;
  ret validationErrors.

(** [handleSubmit(e)]. *)
Definition handleSubmit (opts : UseFormOptions) (render : FormState) : M unit :=
  validationErrors <- handleSubmit_validation opts render ;;
  (if Nat.eqb (length (Object_keys validationErrors)) 0
   then call_onSubmit opts render (values render)
   else ret tt) ;;
  setIsSubmitting (fun _ => false).

(** ** Running the model *)

(** The state [useForm] starts in. *)
Definition initialState (opts : UseFormOptions) : FormState :=
  mkFormState (initialValues opts) ∅ ∅ false.

(** Runs a handler from a state, with an empty call log. *)
Definition run {A} (m : M A) (s : FormState) : Result A * World :=
  m (mkWorld s []).

(** The touched map [handleSubmit] installs. *)
Definition all_touched (opts : UseFormOptions) : FormTouched :=
  foldl (fun (acc : FormTouched) key => <[ key := true ]> acc) ∅
        (Object_keys (initialValues opts)).

(** Whether the callback uses its [resetForm] capability. *)
Definition calls_resetForm (acts : list Action) : bool :=
  existsb (fun a => match a with CallResetForm => true | _ => false end) acts.

(** The calls through the two capabilities handed to the callback. *)
Definition handed (a : Action) : bool :=
  match a with
  | CallResetForm | CallSetSubmitting _ => true
  | _ => false
  end.

(** The calls that do not write [touched]. *)
Definition keeps_touched (a : Action) : bool :=
  match a with
  | CallSetSubmitting _ | CallSetFieldValue _ _ | CallSetFieldError _ _ => true
  | _ => false
  end.

(** The calls that write neither [values] nor [touched]. *)
Definition keeps_values_and_touched (a : Action) : bool :=
  match a with
  | CallSetSubmitting _ | CallSetFieldError _ _ => true
  | _ => false
  end.

(** *** Sample collaborators *)

(** A form with one field and no validator, as in the README. *)
Definition username_form (cb : FormValues -> CallbackRun) : UseFormOptions :=
  mkOptions {[ "username" := VString "" ]} None cb true true.

(** A callback that returns at once. *)
Definition cb_noop : FormValues -> CallbackRun :=
  fun _ => mkRun [] (Ok tt).

(** The callback of the demo [App]: it calls [resetForm()] and returns. *)
Definition cb_reset : FormValues -> CallbackRun :=
  fun _ => mkRun [CallResetForm] (Ok tt).

(** A callback that rejects, as a failed request would. *)
Definition cb_fail : FormValues -> CallbackRun :=
  fun _ => mkRun [] (Throw (new_Error "Request failed")).

(** [Number] and [Date] tabulated on the raw texts the examples use
    (["42"], ["abc"], ["2024-01-15"]), with the results an engine gives
    for them. *)
Definition sample_host : Host :=
  mkHost
    (fun raw => if String.eqb raw "42" then 42%float else nan)
    (fun raw => if String.eqb raw "2024-01-15"
                then Ok "2024-01-15T00:00:00.000Z"
                else Throw (new_Error "Invalid time value")).

Example submit_noop :
  isSubmitting (state (run (handleSubmit (username_form cb_noop)
                             (initialState (username_form cb_noop)))
                           (initialState (username_form cb_noop))).2) = false.
Proof. vm_compute. reflexivity. Qed.

(** ** Facts about the building blocks *)

Section Keys.
Context {A : Type}.
Implicit Types o : gmap string A.

Lemma Object_keys_length o : length (Object_keys o) = size o.
Proof. unfold Object_keys. by rewrite length_fmap, length_map_to_list. Qed.

Lemma Object_keys_empty o :
  Nat.eqb (length (Object_keys o)) 0 = bool_decide (o = ∅).
Proof.
  rewrite Object_keys_length.
  case_bool_decide as Ho.
  - subst o. by rewrite map_size_empty.
  - apply Nat.eqb_neq. by rewrite map_size_empty_iff.
Qed.

Lemma elem_of_Object_keys o k : k ∈ Object_keys o ↔ k ∈ dom o.
Proof.
  unfold Object_keys. rewrite elem_of_dom, list_elem_of_fmap. split.
  - intros [[k' v] [-> Hin]]. apply elem_of_map_to_list in Hin. by exists v.
  - intros [v Hv]. exists (k, v). split; [done |]. by apply elem_of_map_to_list.
Qed.
End Keys.

Lemma foldl_touch_lookup (keys : list string) (acc : FormTouched) (k : string) :
  foldl (fun (acc : FormTouched) key => <[ key := true ]> acc) acc keys !! k
  = if bool_decide (k ∈ keys) then Some true else acc !! k.
Proof.
  revert acc. induction keys as [| key keys IH]; intros acc.
  - by rewrite bool_decide_eq_false_2 by apply not_elem_of_nil.
  - cbn [foldl]. rewrite IH. case_bool_decide as Hin.
    + by rewrite bool_decide_eq_true_2 by (by right).
    + destruct (decide (k = key)) as [-> | Hne].
      * rewrite lookup_insert_eq. by rewrite bool_decide_eq_true_2 by left.
      * rewrite lookup_insert_ne by done.
        rewrite bool_decide_eq_false_2; [done |].
        rewrite elem_of_cons. tauto.
Qed.

Lemma all_touched_lookup (opts : UseFormOptions) (k : string) :
  all_touched opts !! k
  = if bool_decide (k ∈ dom (initialValues opts)) then Some true else None.
Proof.
  unfold all_touched. rewrite foldl_touch_lookup, lookup_empty.
  by rewrite (bool_decide_ext _ _ (elem_of_Object_keys (initialValues opts) k)).
Qed.

(** Unfolds the setters of a handler down to the record they build. *)
Ltac run_setters :=
  cbv [bind modify ret throw setValues setErrors setTouched setIsSubmitting
       resetForm perform setFieldError setFieldTouched];
  cbn [fst snd state submitted values errors touched isSubmitting].

(** Sequencing after a step that returns. *)
Lemma bind_Ok {A B} (m : M A) (k : A -> M B) (w w' : World) (a : A) :
  m w = (Ok a, w') → bind m k w = k a w'.
Proof. intros Hm. unfold bind. by rewrite Hm. Qed.

(** A call made by the callback returns and leaves the call log alone. *)
Lemma perform_world (opts : UseFormOptions) (render : FormState) (a : Action)
    (w : World) :
  ∃ st', perform opts render a w = (Ok tt, mkWorld st' (submitted w)).
Proof.
  destruct a; cbn [perform]; try (unfold setFieldValue; destruct (validateOnChange opts));
    run_setters; by eexists.
Qed.

(** A sequence of calls returns and leaves the call log alone. *)
Lemma perform_all_spec (opts : UseFormOptions) (render : FormState)
    (acts : list Action) (w : World) :
  (perform_all opts render acts w).1 = Ok tt
  ∧ submitted (perform_all opts render acts w).2 = submitted w.
Proof.
  revert w. induction acts as [| a acts IH]; intros w; [done |].
  cbn [perform_all].
  destruct (perform_world opts render a w) as [st' Hstep].
  rewrite (bind_Ok _ _ _ _ _ Hstep).
  apply (IH (mkWorld st' (submitted w))).
Qed.

(** Steps over the first call of a sequence in an induction on it. *)
Ltac step_call IH :=
  run_setters;
  match goal with
  | |- context [perform_all _ _ _ ?w'] => rewrite (IH w') by done
  end; cbn.

(** Calls that do not write [touched] leave it as it was. *)
Lemma perform_all_keeps_touched (opts : UseFormOptions) (render : FormState)
    (acts : list Action) (w : World) :
  forallb keeps_touched acts = true →
  touched (state (perform_all opts render acts w).2) = touched (state w).
Proof.
  revert w. induction acts as [| a acts IH]; intros w Hall; [done |].
  cbn [forallb] in Hall. apply andb_prop in Hall as [Ha Hall].
  cbn [perform_all].
  destruct a; try discriminate; cbn [perform];
    try (unfold setFieldValue; destruct (validateOnChange opts));
    by step_call IH.
Qed.

(** Calls that write neither [values] nor [touched] leave [values] as
    they were. *)
Lemma perform_all_keeps_values (opts : UseFormOptions) (render : FormState)
    (acts : list Action) (w : World) :
  forallb keeps_values_and_touched acts = true →
  values (state (perform_all opts render acts w).2) = values (state w).
Proof.
  revert w. induction acts as [| a acts IH]; intros w Hall; [done |].
  cbn [forallb] in Hall. apply andb_prop in Hall as [Ha Hall].
  cbn [perform_all].
  destruct a; try discriminate; cbn [perform]; by step_call IH.
Qed.

(** What a sequence of calls through the two handed capabilities leaves
    behind. *)
Lemma perform_all_handed (opts : UseFormOptions) (render : FormState)
    (acts : list Action) (w : World) :
  forallb handed acts = true →
  values (state (perform_all opts render acts w).2)
  = (if calls_resetForm acts then initialValues opts else values (state w))
  ∧ errors (state (perform_all opts render acts w).2)
    = (if calls_resetForm acts then ∅ else errors (state w))
  ∧ touched (state (perform_all opts render acts w).2)
    = (if calls_resetForm acts then ∅ else touched (state w)).
Proof.
  revert w. induction acts as [| a acts IH]; intros w Hall; [done |].
  cbn [forallb] in Hall. apply andb_prop in Hall as [Ha Hall].
  cbn [perform_all calls_resetForm existsb].
  destruct a; try discriminate; cbn [perform]; run_setters;
    match goal with
    | |- context [perform_all _ _ _ ?w'] =>
        destruct (IH w' Hall) as (-> & -> & ->)
    end; cbn; unfold calls_resetForm; by destruct (existsb _ acts).
Qed.

(** [handleSubmit] when whole-form validation reports something: the
    callback is skipped and the handler returns. *)
Lemma handleSubmit_invalid (opts : UseFormOptions) (render : FormState) (w : World) :
  validateForm (validationSchema opts) (values render) ≠ ∅ →
  handleSubmit opts render w
  = (Ok tt,
     mkWorld (mkFormState (values (state w))
                          (validateForm (validationSchema opts) (values render))
                          (all_touched opts) false)
             (submitted w)).
Proof.
  intros Hne. unfold handleSubmit, handleSubmit_validation. run_setters.
  rewrite Object_keys_empty, bool_decide_eq_false_2 by done.
  by run_setters.
Qed.

(** The world in which the callback starts when validation passes. *)
Definition before_callback (opts : UseFormOptions) (render : FormState) (w : World) : World :=
  mkWorld (mkFormState (values (state w)) ∅ (all_touched opts) true)
          (submitted w ++ [values render]).

(** [handleSubmit] when whole-form validation reports nothing: the
    callback runs, and only its normal return reaches the last setter. *)
Lemma handleSubmit_valid (opts : UseFormOptions) (render : FormState) (w : World) :
  validateForm (validationSchema opts) (values render) = ∅ →
  handleSubmit opts render w
  = let w' := (perform_all opts render (cb_actions (onSubmit opts (values render)))
                           (before_callback opts render w)).2 in
    match cb_result (onSubmit opts (values render)) with
    | Ok _ =>
        (Ok tt,
         mkWorld (mkFormState (values (state w')) (errors (state w'))
                              (touched (state w')) false)
                 (submitted w'))
    | Throw e => (Throw e, w')
    end.
Proof.
  intros Hve.
  unfold handleSubmit, handleSubmit_validation, call_onSubmit, before_callback.
  run_setters.
  rewrite Object_keys_empty, Hve, bool_decide_eq_true_2 by done.
  run_setters.
  destruct (perform_all_spec opts render (cb_actions (onSubmit opts (values render)))
    (mkWorld (mkFormState (values (state w)) ∅
       (foldl (fun (acc : FormTouched) key => <[ key := true ]> acc) ∅
              (Object_keys (initialValues opts))) true)
       (submitted w ++ [values render]))) as (Hok & _).
  fold (all_touched opts) in *.
  destruct (perform_all _ _ _ _) as [r w'] eqn:Hrun. simpl in Hok. subst r.
  cbn [snd]. by destruct (cb_result _).
Qed.

(** A handler that returns leaves [isSubmitting] false. *)
Lemma handleSubmit_returns_idle (opts : UseFormOptions) (render : FormState) (w : World) :
  (handleSubmit opts render w).1 = Ok tt →
  isSubmitting (state (handleSubmit opts render w).2) = false.
Proof.
  destruct (decide (validateForm (validationSchema opts) (values render) = ∅)) as [He | Hne].
  - rewrite handleSubmit_valid by done. cbn zeta. by destruct (cb_result _).
  - by rewrite handleSubmit_invalid by done.
Qed.

(** ** Properties of the submission sequencer *)

(** C1 (as the code behaves): a submit attempt on a form that validates,
    whose [onSubmit] callback throws.  The exception leaves [handleSubmit]
    before its last statement, so the attempt ends with [isSubmitting]
    still true; the claim says the flag is reset on this path too. *)
Theorem handleSubmit_callback_throws_keeps_isSubmitting :
  let opts := username_form cb_fail in
  let r := run (handleSubmit opts (initialState opts)) (initialState opts) in
  r.1 = Throw (new_Error "Request failed")
  ∧ isSubmitting (state r.2) = true.
Proof. vm_compute. split; reflexivity. Qed.


Definition required_username : ValidationSchema :=
  FunctionSchema (fun vals =>
    match vals !! "username" with
    | Some (VString s) =>
        if String.eqb s "" then Ok {[ "username" := Some "Username is required" ]}
        else Ok ∅
    | _ => Ok {[ "username" := Some "Username is required" ]}
    end).

(** A form whose validator requires a non-empty [username]. *)
Definition required_form (cb : FormValues -> CallbackRun) : UseFormOptions :=
  mkOptions {[ "username" := VString "" ]} (Some required_username) cb true true.


(** C7 (as the code behaves): [handleSubmit] marks every declared field
    touched before it reaches the gate, whatever was touched before and
    whatever validation reports; when the attempt ends they are all still
    touched provided validation failed or the only calls the callback made
    on the form were [setSubmitting], [setFieldValue] and [setFieldError]. *)
Theorem handleSubmit_touches_declared_fields
    (opts : UseFormOptions) (render : FormState) (w : World) :
  (∀ k, k ∈ dom (initialValues opts) →
        touched (state (handleSubmit_validation opts render w).2) !! k = Some true)
  ∧ (validateForm (validationSchema opts) (values render) ≠ ∅
     ∨ forallb keeps_touched (cb_actions (onSubmit opts (values render))) = true →
     ∀ k, k ∈ dom (initialValues opts) →
          touched (state (handleSubmit opts render w).2) !! k = Some true).
Proof.
  assert (Hall : ∀ k, k ∈ dom (initialValues opts) → all_touched opts !! k = Some true).
  { intros k Hk. by rewrite all_touched_lookup, bool_decide_eq_true_2. }
  split; [exact Hall |].
  intros Hcase k Hk.
  destruct (decide (validateForm (validationSchema opts) (values render) = ∅))
    as [Hve | Hne].
  - destruct Hcase as [? | Hkeeps]; [done |].
    rewrite handleSubmit_valid by done. cbn zeta.
    pose proof (perform_all_keeps_touched opts render
                  (cb_actions (onSubmit opts (values render)))
                  (before_callback opts render w) Hkeeps) as Ht.
    destruct (cb_result _); cbn; rewrite Ht; by apply Hall.
  - rewrite handleSubmit_invalid by done. by apply Hall.
Qed.

(** A callback that reports a server-side error on a field and returns. *)
Definition cb_server_error : FormValues -> CallbackRun :=
  fun _ => mkRun [CallSetFieldError "username" "Already taken"; CallSetSubmitting false]
                 (Ok tt).

Lemma handleSubmit_touches_declared_fields_witness :
  let opts := username_form cb_server_error in
  touched (state (run (handleSubmit opts (initialState opts)) (initialState opts)).2)
    !! "username" = Some true.
Proof.
  cbn zeta.
  apply (proj2 (handleSubmit_touches_declared_fields (username_form cb_server_error)
                  (initialState (username_form cb_server_error))
                  (mkWorld (initialState (username_form cb_server_error)) []))).
  - right. reflexivity.
  - vm_compute. reflexivity.
Defined.

(** C7 (as stated) fails: with the callback of the demo [App], which calls
    [resetForm()], a successful submit ends with the declared field
    [username] not touched. *)
Lemma handleSubmit_reset_clears_touched :
  let opts := username_form cb_reset in
  let r := run (handleSubmit opts (initialState opts)) (initialState opts) in
  "username" ∈ dom (initialValues opts)
  ∧ r.1 = Ok tt
  ∧ touched (state r.2) !! "username" ≠ Some true.
Proof.
  cbn zeta. split; [| split].
  - vm_compute. reflexivity.
  - vm_compute. reflexivity.
  - vm_compute. discriminate.
Qed.



(** C8: [resetForm()] from any state puts back the initial values, empties
    [errors] and [touched], and clears [isSubmitting]. *)
Theorem resetForm_restores_initial (opts : UseFormOptions) (w : World) :
  resetForm opts w = (Ok tt, mkWorld (initialState opts) (submitted w)).
Proof. reflexivity. Qed.

(** ** The validator adapter *)

(** An [Error] instance never reaches the [ZodError] clause. *)
Lemma validateField_catch_Error (field : string) (error : Thrown) :
  instanceof_Error error = true → validateField_catch field error = message error.
Proof.
  intros He. unfold validateField_catch.
  by rewrite He, orb_true_r.
Qed.

(** Whatever the validator throws, [validateField] answers with a message. *)
Lemma validateField_throw_is_message (schema : ValidationSchema) (values : FormValues)
    (field : string) (value : Value) (error : Thrown) :
  validateField_try schema values field value = Throw error →
  validateField (Some schema) values field value
  = Some (validateField_catch field error).
Proof. intros Hthrow. unfold validateField. by rewrite Hthrow. Qed.

(** A yup-like schema whose [confirm] field must repeat [password]
    ([string().oneOf([ref("password")], ...)]). *)
Definition confirm_validateAt (path : string) (bag : FormValues) : Result unit :=
  let mismatch :=
    Throw (new_ValidationError "Passwords must match"
             [mkInner (Some "confirm") "Passwords must match"]) in
  if String.eqb path "confirm" then
    match bag !! "password", bag !! "confirm" with
    | Some (VString p), Some (VString c) => if String.eqb p c then Ok tt else mismatch
    | _, _ => mismatch
    end
  else Ok tt.

Definition confirm_schema : ValidationSchema :=
  YupSchema confirm_validateAt (confirm_validateAt "confirm").

(** What the yup branch does: [validateField] runs the at-path validation
    on a bag that holds the given field only, and answers with no message
    when it succeeds and with the message of the [Error] it throws when it
    fails. *)
Theorem validateField_yup_single_field_bag
    (validateAt : string -> FormValues -> Result unit)
    (validate : FormValues -> Result unit)
    (values : FormValues) (field : string) (value : Value) :
  (validateAt field {[ field := value ]} = Ok tt →
   validateField (Some (YupSchema validateAt validate)) values field value = None)
  ∧ (∀ error, validateAt field {[ field := value ]} = Throw error →
       instanceof_Error error = true →
       validateField (Some (YupSchema validateAt validate)) values field value
       = Some (message error)).
Proof.
  split.
  - intros Hok. unfold validateField, validateField_try. by rewrite Hok.
  - intros error Hthrow He.
    rewrite (validateField_throw_is_message _ _ _ _ error) by done.
    by rewrite validateField_catch_Error.
Qed.

Lemma validateField_yup_single_field_bag_witness :
  validateField (Some confirm_schema)
    {[ "password" := VString "secret" ]} "confirm" (VString "secret")
  = Some "Passwords must match".
Proof.
  apply (proj2 (validateField_yup_single_field_bag confirm_validateAt
                  (confirm_validateAt "confirm")
                  {[ "password" := VString "secret" ]} "confirm" (VString "secret"))
               (new_ValidationError "Passwords must match"
                  [mkInner (Some "confirm") "Passwords must match"])).
  - vm_compute. reflexivity.
  - reflexivity.
Defined.

(** C2 (as the code behaves): the stored [password] is ["secret"] and
    [confirm] is validated with the same text.  On the current values
    merged with the override the at-path validation succeeds, but
    [validateField] hands the schema a bag without [password] and reports
    a message; the claim says the merged bag is validated, as the function
    branch of [validateField] does. *)
Lemma validateField_yup_ignores_current_values :
  let values : FormValues := {[ "password" := VString "secret" ]} in
  confirm_validateAt "confirm" (<[ "confirm" := VString "secret" ]> values) = Ok tt
  ∧ validateField (Some confirm_schema) values "confirm" (VString "secret") ≠ None.
Proof. cbn zeta. split; vm_compute; [reflexivity | discriminate]. Qed.

(** C3 (as the code behaves): a zod schema rejects the [email] field with
    one issue on that path.  A [ZodError] is an [Error], so the first
    clause of the [catch] answers with the error's own [message], the JSON
    text of the issue list, and not with the issue's message. *)
Theorem validateField_zod_answers_json_text (json : string) :
  let zodError := new_ZodError json [mkIssue [PKey "email"] "Invalid email"] in
  validateField (Some (ZodSchema (fun _ => Throw zodError))) ∅ "email" (VString "x")
  = Some json.
Proof. reflexivity. Qed.

(** The [ZodError] clause on a value that did get past the first clause. *)
Lemma validateField_catch_zod_clause (field : string) (error : Thrown) :
  instanceof_ValidationError error = false →
  instanceof_Error error = false →
  instanceof_ZodError error = true →
  validateField_catch field error
  = match find_issue (issues error) field with
    | Some issue =>
        if String.eqb (issue_message issue) "" then "Invalid value"
        else issue_message issue
    | None => "Invalid value"
    end.
Proof.
  intros Hv He Hz. unfold validateField_catch, truthy. rewrite Hv, He, Hz. cbn.
  destruct (find_issue _ _) as [issue |]; [| done].
  by destruct (String.eqb _ _).
Qed.

(** ** The value normalizer *)

(** [handleChange] stores the value its [switch] computed, and returns. *)
Lemma handleChange_stores (host : Host) (opts : UseFormOptions) (render : FormState)
    (target : Target) (w : World) (fieldValue : Value) :
  handleChange_fieldValue host target = Ok fieldValue →
  (handleChange host opts render target w).1 = Ok tt
  ∧ values (state (handleChange host opts render target w).2)
    = <[ target_name target := fieldValue ]> (values (state w))
  ∧ errors (state (handleChange host opts render target w).2)
    = (if validateOnChange opts
       then <[ target_name target :=
                 validateField (validationSchema opts) (values render)
                               (target_name target) fieldValue ]> (errors (state w))
       else errors (state w)).
Proof.
  intros Hv. unfold handleChange. rewrite Hv.
  destruct (validateOnChange opts); by run_setters.
Qed.

(** What the [file] case does: a [file] change stores the file itself when
    the list holds exactly one, the list of files in order when the list is
    there with any other count (an empty list when no file is selected),
    and null when there is no file list. *)
Theorem handleChange_file_value (host : Host) (opts : UseFormOptions)
    (render : FormState) (target : Target) (w : World) :
  target_type target = "file" →
  values (state (handleChange host opts render target w).2) !! target_name target
  = Some (match target_files target with
          | Some [f] => VFile f
          | Some fs => VFiles fs
          | None => VNull
          end).
Proof.
  intros Hty.
  destruct (handleChange_stores host opts render target w
              (match target_files target with
               | Some [f] => VFile f
               | Some fs => VFiles fs
               | None => VNull
               end)) as (_ & -> & _).
  - unfold handleChange_fieldValue. rewrite Hty. cbn.
    by destruct (target_files target) as [[| f [| g fs]] |].
  - by rewrite lookup_insert_eq.
Qed.

Lemma handleChange_file_value_witness :
  let opts := username_form cb_noop in
  values (state (run (handleChange sample_host opts (initialState opts)
                        (mkTarget "avatar" "" "file" false (Some [])))
                     (initialState opts)).2) !! "avatar"
  = Some (VFiles []).
Proof.
  cbn zeta.
  apply (handleChange_file_value sample_host (username_form cb_noop)
           (initialState (username_form cb_noop))
           (mkTarget "avatar" "" "file" false (Some []))
           (mkWorld (initialState (username_form cb_noop)) [])).
  reflexivity.
Defined.

(** C4 (as the code behaves): a [file] change whose file list is empty
    (no file selected) stores an empty list; the claim says it stores null,
    which the code does only when there is no file list at all. *)
Lemma handleChange_no_file_selected_not_null :
  handleChange_fieldValue sample_host (mkTarget "avatar" "" "file" false (Some []))
  = Ok (VFiles [])
  ∧ handleChange_fieldValue sample_host (mkTarget "avatar" "" "file" false (Some []))
    ≠ Ok VNull.
Proof. split; [reflexivity | discriminate]. Qed.

(** C9: a [number] change returns without throwing and stores null for an
    empty raw text and [Number(raw)] otherwise; a raw text that [Number]
    turns into NaN is stored as NaN. *)
Theorem handleChange_number_value (host : Host) (opts : UseFormOptions)
    (render : FormState) (target : Target) (w : World) :
  target_type target = "number" →
  let r := handleChange host opts render target w in
  r.1 = Ok tt
  ∧ values (state r.2) !! target_name target
    = Some (if String.eqb (target_value target) "" then VNull
            else VNumber (Number host (target_value target)))
  ∧ (target_value target ≠ "" → Number host (target_value target) = nan →
     values (state r.2) !! target_name target = Some (VNumber nan)).
Proof.
  intros Hty. cbn zeta.
  destruct (handleChange_stores host opts render target w
              (if String.eqb (target_value target) "" then VNull
               else VNumber (Number host (target_value target)))) as (Hok & Hvals & _).
  - unfold handleChange_fieldValue. by rewrite Hty.
  - rewrite Hok, Hvals, lookup_insert_eq. split; [done |]. split; [done |].
    intros Hne Hnan. apply String.eqb_neq in Hne. by rewrite Hne, Hnan.
Qed.

Lemma handleChange_number_value_witness :
  let opts := username_form cb_noop in
  values (state (run (handleChange sample_host opts (initialState opts)
                        (mkTarget "age" "abc" "number" false None))
                     (initialState opts)).2) !! "age"
  = Some (VNumber nan).
Proof.
  cbn zeta.
  apply (handleChange_number_value sample_host (username_form cb_noop)
           (initialState (username_form cb_noop))
           (mkTarget "age" "abc" "number" false None)
           (mkWorld (initialState (username_form cb_noop)) [])).
  - reflexivity.
  - discriminate.
  - reflexivity.
Defined.

(** ** Merging a field's validation result into [errors] *)

Lemma handleBlur_errors (opts : UseFormOptions) (render : FormState)
    (target : Target) (w : World) :
  validateOnBlur opts = true →
  errors (state (handleBlur opts render target w).2)
  = <[ target_name target :=
         validateField (validationSchema opts) (values render) (target_name target)
                       (get_value (values render) (target_name target)) ]>
      (errors (state w)).
Proof. intros Hon. unfold handleBlur. rewrite Hon. by run_setters. Qed.

Lemma setFieldValue_errors (opts : UseFormOptions) (render : FormState)
    (field : string) (value : Value) (w : World) :
  validateOnChange opts = true →
  errors (state (setFieldValue opts render field value w).2)
  = <[ field := validateField (validationSchema opts) (values render) field value ]>
      (errors (state w)).
Proof. intros Hon. unfold setFieldValue. rewrite Hon. by run_setters. Qed.

(** C5 (as the code behaves): when the validation of a field succeeds in
    [handleChange], [handleBlur] or [setFieldValue], the merge writes the
    field's key with the value [undefined]: the key is in [errors]
    afterwards, and reading it gives no message. *)
Theorem field_validation_success_writes_undefined
    (host : Host) (opts : UseFormOptions) (render : FormState) (w : World) :
  (∀ target fieldValue,
     validateOnChange opts = true →
     handleChange_fieldValue host target = Ok fieldValue →
     validateField (validationSchema opts) (values render)
                   (target_name target) fieldValue = None →
     errors (state (handleChange host opts render target w).2) !! target_name target
     = Some None)
  ∧ (∀ target,
       validateOnBlur opts = true →
       validateField (validationSchema opts) (values render) (target_name target)
                     (get_value (values render) (target_name target)) = None →
       errors (state (handleBlur opts render target w).2) !! target_name target
       = Some None)
  ∧ (∀ field value,
       validateOnChange opts = true →
       validateField (validationSchema opts) (values render) field value = None →
       errors (state (setFieldValue opts render field value w).2) !! field
       = Some None).
Proof.
  split; [| split].
  - intros target fieldValue Hon Hv Hvalid.
    destruct (handleChange_stores host opts render target w fieldValue Hv)
      as (_ & _ & ->).
    by rewrite Hon, Hvalid, lookup_insert_eq.
  - intros target Hon Hvalid.
    by rewrite handleBlur_errors, Hvalid, lookup_insert_eq.
  - intros field value Hon Hvalid.
    by rewrite setFieldValue_errors, Hvalid, lookup_insert_eq.
Qed.

Lemma field_validation_success_writes_undefined_witness :
  let opts := required_form cb_noop in
  errors (state (run (handleChange sample_host opts (initialState opts)
                        (mkTarget "username" "alice" "text" false None))
                     (initialState opts)).2) !! "username"
  = Some None.
Proof.
  cbn zeta.
  apply (proj1 (field_validation_success_writes_undefined sample_host
                  (required_form cb_noop) (initialState (required_form cb_noop))
                  (mkWorld (initialState (required_form cb_noop)) []))
               (mkTarget "username" "alice" "text" false None) (VString "alice")).
  - reflexivity.
  - reflexivity.
  - vm_compute. reflexivity.
Defined.

(** C5 (as stated) fails: the validator accepts [username = "alice"], and
    after the change [errors] has the key [username]. *)
Lemma handleChange_success_leaves_key :
  let opts := required_form cb_noop in
  let r := run (handleChange sample_host opts (initialState opts)
                  (mkTarget "username" "alice" "text" false None))
               (initialState opts) in
  validateField (validationSchema opts) (values (initialState opts))
                "username" (VString "alice") = None
  ∧ errors (state r.2) !! "username" ≠ None
  ∧ Object_keys (errors (state r.2)) = ["username"].
Proof.
  cbn zeta. split; [| split].
  - vm_compute. reflexivity.
  - vm_compute. discriminate.
  - vm_compute. reflexivity.
Qed.

(** ** Further checks on the point mutations *)

(** A thrown value that is no [Error] gets the generic message. *)
Example validateField_catch_non_Error :
  validateField_catch "email" thrown_non_Error = "Invalid value".
Proof. reflexivity. Qed.

(** An error set by hand is gone after a submit attempt that validates. *)
Example setFieldError_then_submit :
  let opts := username_form cb_noop in
  let w := (run (setFieldError "username" "Taken") (initialState opts)).2 in
  errors (state w) !! "username" = Some (Some "Taken")
  ∧ errors (state (handleSubmit opts (state w) w).2) !! "username" = None.
Proof. cbn zeta. split; vm_compute; reflexivity. Qed.

(** [setFieldTouched(f, b)] twice is [setFieldTouched(f, b)] once. *)
Lemma setFieldTouched_idempotent (field : string) (isTouched : bool) (w : World) :
  (setFieldTouched field isTouched ;; setFieldTouched field isTouched) w
  = setFieldTouched field isTouched w.
Proof.
  unfold setFieldTouched. run_setters. by rewrite insert_insert_eq.
Qed.

(** A blur on the empty required field reports it and touches it. *)
Example handleBlur_required_username :
  let opts := required_form cb_noop in
  let r := run (handleBlur opts (initialState opts)
                  (mkTarget "username" "" "text" false None))
               (initialState opts) in
  errors (state r.2) !! "username" = Some (Some "Username is required")
  ∧ touched (state r.2) !! "username" = Some true.
Proof. cbn zeta. split; vm_compute; reflexivity. Qed.

(** * The rest of the hook: [getFieldProps], and the demo [App] *)

(** ** Conversions the display side uses *)

(** The engine conversions [getFieldProps] reaches beyond those of [Host]:
    [String(n)] on a number, and [new Date(v).toISOString()] on a stored
    value that is not a string. *)
Record Display := mkDisplay {
  String_of_number : float -> string;
  Date_of_value : Value -> Result string
}.

(** Truthiness of a stored value: [undefined], [null], [""], [false],
    [0], [-0] and [NaN] are falsy; every object and function is truthy. *)
Definition truthy_value (v : Value) : bool :=
  match v with
  | VUndefined | VNull => false
  | VString s => negb (String.eqb s "")
  | VBool b => b
  | VNumber n => negb (is_zero n || is_nan n)
  | VFile _ | VFiles _ | VInherited _ => true
  end.

(** [v ?? ""]. *)
Definition nullish_default (v : Value) : Value :=
  match v with
  | VUndefined | VNull => VString ""
  | _ => v
  end.

(** [String(v)]; an array joins the texts of its elements with commas. *)
Definition String_of (display : Display) (v : Value) : string :=
  match v with
  | VUndefined => "undefined"
  | VNull => "null"
  | VString s => s
  | VBool b => if b then "true" else "false"
  | VNumber n => String_of_number display n
  | VFile _ => "[object File]"
  | VFiles fs => String.concat "," (map (fun _ => "[object File]") fs)
  | VInherited k => inherited_text k
  end.

(** [new Date(v).toISOString()]. *)
Definition Date_value_toISOString (host : Host) (display : Display) (v : Value)
  : Result string :=
  match v with
  | VString s => Date_toISOString host s
  | _ => Date_of_value display v
  end.

(** [s.split("T")[0]]: the text before the first ["T"] (character 84). *)
Fixpoint before_T (s : string) : string :=
  match s with
  | EmptyString => EmptyString
  | String c rest => if Ascii.eqb c (Ascii.ascii_of_nat 84) then EmptyString else String c (before_T rest)
  end.

(** ** [getFieldProps] *)

(** [inputProps]; reading [checked] or [value] off an object that has no
    such property, or has it [undefined], is [None]. *)
Record InputProps := mkInputProps {
  input_name : string;
  input_onChange : Target -> M unit;
  input_onBlur : Target -> M unit;
  input_type : string;
  input_checked : option bool;
  input_value : option string
}.

(** [meta]: what the reads [errors[field]] and [touched[field]] find. *)
Record FieldMeta := mkFieldMeta {
  meta_error : Read (option string);
  meta_touched : Read bool
}.

Record FieldProps := mkFieldProps {
  inputProps : InputProps;
  meta : FieldMeta
}.

(** [getFieldProps(field, type)], on the state of the render it closes
    over; the [date] case throws when the stored value is no valid date. *)
Definition getFieldProps (host : Host) (display : Display) (opts : UseFormOptions)
    (render : FormState) (field : string) (type : string) : Result FieldProps :=
  let baseInputProps := fun checked value =>
    mkInputProps field (handleChange host opts render) (handleBlur opts render)
                 type checked value in
  let meta := mkFieldMeta (read (errors render) field) (read (touched render) field) in
  let stored := get_value (values render) field in
  if String.eqb type "checkbox" || String.eqb type "radio" then
    Ok (mkFieldProps (baseInputProps (Some (truthy_value stored)) None) meta)
  else if String.eqb type "file" then
    Ok (mkFieldProps (baseInputProps None None) meta)
  else if String.eqb type "date" then
    if truthy_value stored then
      match Date_value_toISOString host display stored with
      | Ok iso => Ok (mkFieldProps (baseInputProps None (Some (before_T iso))) meta)
      | Throw e => Throw e
      end
    else Ok (mkFieldProps (baseInputProps None (Some "")) meta)
  else
    Ok (mkFieldProps
          (baseInputProps None (Some (String_of display (nullish_default stored))))
          meta).

(** ** The demo [App] *)

(** The options [App] passes to [useForm]; [schema] is its yup object
    schema, and its [onSubmit] logs the values and calls [resetForm()]. *)
Definition App_options (schema : ValidationSchema) : UseFormOptions :=
  mkOptions
    {[ "username" := VString ""; "email" := VString ""; "isActive" := VBool false;
       "profilePicture" := VNull; "birthDate" := VString ""; "gender" := VString "" ]}
    (Some schema) cb_reset true true.

(** Truthiness of what a read finds; a property of [Object.prototype] is
    a function or an object, hence truthy. *)
Definition truthy_read {A} (t : A -> bool) (r : Read A) : bool :=
  match r with
  | Got a => t a
  | Inherited _ => true
  | Undefined => false
  end.

(** What [App] renders under a field: nothing, or a [span] around what
    the read [errors.f] found. *)
Inductive Rendered :=
| RenderNothing
| RenderSpan (child : Read (option string)).

(** [touched.f && errors.f && <span>{errors.f}</span>]. *)
Definition App_error_shown (st : FormState) (field : string) : Rendered :=
  if truthy_read (fun b : bool => b) (read (touched st) field)
     && truthy_read truthy (read (errors st) field)
  then RenderSpan (read (errors st) field)
  else RenderNothing.

(** A host that also reads back the timestamp it produced. *)
Definition calendar_host : Host :=
  mkHost
    (Number sample_host)
    (fun raw => if String.eqb raw "2024-01-15" || String.eqb raw "2024-01-15T00:00:00.000Z"
                then Ok "2024-01-15T00:00:00.000Z"
                else Throw (new_Error "Invalid time value")).

(** Display conversions tabulated on the values the examples use: the
    numbers 42 and NaN, and a [File], which is no date. *)
Definition sample_display : Display :=
  mkDisplay
    (fun n => if is_nan n then "NaN" else "42")
    (fun _ => Throw (new_Error "Invalid time value")).

Example before_T_iso : before_T "2024-01-15T00:00:00.000Z" = "2024-01-15".
Proof. reflexivity. Qed.

(** ** Whole-form validation *)

Section LastWrite.
Context {X V : Type} (kf : X -> string) (vf : X -> V).

End LastWrite.





(** The whole-form call [validateForm] makes on a schema. *)
Definition whole_form_throws (schema : ValidationSchema) (vals : FormValues)
    (e : Thrown) : Prop :=
  match schema with
  | YupSchema _ validate => validate vals = Throw e
  | ZodSchema parseAsync => parseAsync vals = Throw e
  | FunctionSchema fn => fn vals = Throw e
  end.

(** X3: a validator that fails with anything but a yup or zod validation
    error (a crash) counts as "no errors": the submit attempt goes on to
    call [onSubmit] with the values. *)
Theorem handleSubmit_validator_crash_submits
    (opts : UseFormOptions) (render : FormState) (w : World)
    (schema : ValidationSchema) (e : Thrown) :
  validationSchema opts = Some schema →
  whole_form_throws schema (values render) e →
  instanceof_ValidationError e = false →
  instanceof_ZodError e = false →
  validateForm (validationSchema opts) (values render) = ∅
  ∧ submitted (handleSubmit opts render w).2 = (submitted w ++ [values render])%list.
Proof.
  intros Hs Hthrow Hv Hz.
  assert (Hve : validateForm (validationSchema opts) (values render) = ∅).
  { rewrite Hs. unfold validateForm, validateForm_catch.
    destruct schema; cbn in Hthrow; rewrite Hthrow; by rewrite Hv, Hz. }
  split; [done |].
  rewrite handleSubmit_valid by done. cbn zeta.
  destruct (perform_all_spec opts render (cb_actions (onSubmit opts (values render)))
              (before_callback opts render w)) as (_ & Hlog).
  by destruct (cb_result _).
Qed.

(** A function validator that crashes on every bag. *)
Definition crashing_form (cb : FormValues -> CallbackRun) : UseFormOptions :=
  mkOptions {[ "username" := VString "" ]}
            (Some (FunctionSchema (fun _ => Throw (new_Error "boom")))) cb true true.

Lemma handleSubmit_validator_crash_submits_witness :
  let opts := crashing_form cb_noop in
  validateForm (validationSchema opts) (values (initialState opts)) = ∅
  ∧ submitted (run (handleSubmit opts (initialState opts)) (initialState opts)).2
    = [values (initialState opts)].
Proof.
  cbn zeta.
  apply (handleSubmit_validator_crash_submits (crashing_form cb_noop)
           (initialState (crashing_form cb_noop))
           (mkWorld (initialState (crashing_form cb_noop)) [])
           (FunctionSchema (fun _ => Throw (new_Error "boom"))) (new_Error "boom"));
    reflexivity.
Defined.

(** X4: a function validator that reports a field with an empty (or
    undefined) message: single-field validation of the stored value says
    "no error", yet the key makes the submit gate skip [onSubmit]. *)
Theorem empty_message_blocks_submit
    (opts : UseFormOptions) (render : FormState) (w : World)
    (fn : FormValues -> Result FormErrors) (validationErrors : FormErrors)
    (field : string) (value : Value) (m : option string) :
  validationSchema opts = Some (FunctionSchema fn) →
  values render !! field = Some value →
  fn (values render) = Ok validationErrors →
  validationErrors !! field = Some m →
  truthy m = false →
  validateField (validationSchema opts) (values render) field value = None
  ∧ submitted (handleSubmit opts render w).2 = submitted w.
Proof.
  intros Hs Hval Hfn Hm Hfalsy. split.
  - rewrite Hs. unfold validateField, validateField_try, read.
    rewrite insert_id by done. rewrite Hfn, Hm. by rewrite Hfalsy.
  - rewrite handleSubmit_invalid; [done |].
    rewrite Hs. cbn. rewrite Hfn. intros ->. by rewrite lookup_empty in Hm.
Qed.

(** A function validator that reports [username] with an empty message. *)
Definition blank_message_form (cb : FormValues -> CallbackRun) : UseFormOptions :=
  mkOptions {[ "username" := VString "" ]}
            (Some (FunctionSchema (fun _ => Ok {[ "username" := Some "" ]}))) cb true true.

Lemma empty_message_blocks_submit_witness :
  let opts := blank_message_form cb_noop in
  validateField (validationSchema opts) (values (initialState opts))
                "username" (VString "") = None
  ∧ submitted (run (handleSubmit opts (initialState opts)) (initialState opts)).2 = [].
Proof.
  cbn zeta.
  apply (empty_message_blocks_submit (blank_message_form cb_noop)
           (initialState (blank_message_form cb_noop))
           (mkWorld (initialState (blank_message_form cb_noop)) [])
           (fun _ => Ok {[ "username" := Some "" ]}) {[ "username" := Some "" ]}
           "username" (VString "") (Some ""));
    reflexivity.
Defined.

(** ** Single-field validation *)

(** X5: with a function validator, [validateField] runs it on the current
    values with the field overridden and reads the field off the result:
    an own entry gives its message when that is non-empty and nothing
    otherwise, so messages for other fields are not reported; when the
    result has no entry for the field, the answer is nothing, unless the
    field is named like a property of [Object.prototype], whose text is
    then reported as the message. *)
Theorem validateField_function_reports_own_field
    (fn : FormValues -> Result FormErrors) (vals : FormValues)
    (field : string) (value : Value) (validationErrors : FormErrors) :
  fn (<[ field := value ]> vals) = Ok validationErrors →
  validateField (Some (FunctionSchema fn)) vals field value
  = match validationErrors !! field with
    | Some m => if truthy m then m else None
    | None =>
        if bool_decide (field ∈ Object_prototype_keys)
        then Some (inherited_text field)
        else None
    end.
Proof.
  intros Hfn. unfold validateField, validateField_try, read. rewrite Hfn.
  destruct (validationErrors !! field) as [[s |] |]; [| done |].
  - cbn. by destruct (String.eqb s "").
  - by case_bool_decide.
Qed.

Lemma validateField_function_reports_own_field_witness :
  validateField (Some required_username) {[ "email" := VString "" ]}
                "username" (VString "alice") = None.
Proof.
  unfold required_username.
  rewrite (validateField_function_reports_own_field _ _ _ _ ∅).
  - reflexivity.
  - vm_compute. reflexivity.
Defined.

(** The same validator asked about a field named [constructor]. *)
Example validateField_inherited_message :
  validateField (Some required_username) {[ "username" := VString "alice" ]}
                "constructor" (VString "x")
  = Some "function Object() { [native code] }".
Proof. vm_compute. reflexivity. Qed.

(** X6: a thrown value that is neither an [Error] nor a yup or zod error
    is reported as the generic message. *)
Theorem validateField_non_Error_is_invalid_value
    (schema : ValidationSchema) (vals : FormValues) (field : string) (value : Value)
    (e : Thrown) :
  validateField_try schema vals field value = Throw e →
  instanceof_ValidationError e = false →
  instanceof_Error e = false →
  instanceof_ZodError e = false →
  validateField (Some schema) vals field value = Some "Invalid value".
Proof.
  intros Hthrow Hv He Hz.
  rewrite (validateField_throw_is_message _ _ _ _ e) by done.
  unfold validateField_catch. by rewrite Hv, He, Hz.
Qed.

Lemma validateField_non_Error_is_invalid_value_witness :
  validateField (Some (ZodSchema (fun _ => Throw thrown_non_Error))) ∅
                "email" (VString "x") = Some "Invalid value".
Proof.
  apply (validateField_non_Error_is_invalid_value
           (ZodSchema (fun _ => Throw thrown_non_Error)) ∅ "email" (VString "x")
           thrown_non_Error); reflexivity.
Defined.

(** ** Change notifications of the other kinds *)

(** The world a change leaves when its value could be computed. *)
Lemma handleChange_world (host : Host) (opts : UseFormOptions) (render : FormState)
    (target : Target) (w : World) (fieldValue : Value) :
  handleChange_fieldValue host target = Ok fieldValue →
  handleChange host opts render target w
  = (Ok tt,
     mkWorld
       (mkFormState
          (<[ target_name target := fieldValue ]> (values (state w)))
          (if validateOnChange opts
           then <[ target_name target :=
                     validateField (validationSchema opts) (values render)
                                   (target_name target) fieldValue ]> (errors (state w))
           else errors (state w))
          (<[ target_name target := true ]> (touched (state w)))
          (isSubmitting (state w)))
       (submitted w)).
Proof.
  intros Hv. unfold handleChange. rewrite Hv.
  destruct (validateOnChange opts); by run_setters.
Qed.

(** X7: a [date] change whose raw text is no valid date makes
    [handleChange] throw before any setter runs: nothing is stored, and the
    field is not marked touched. *)
Theorem handleChange_invalid_date_throws (host : Host) (opts : UseFormOptions)
    (render : FormState) (target : Target) (w : World) (e : Thrown) :
  target_type target = "date" →
  target_value target ≠ "" →
  Date_toISOString host (target_value target) = Throw e →
  handleChange host opts render target w = (Throw e, w).
Proof.
  intros Hty Hne Hthrow. apply String.eqb_neq in Hne.
  unfold handleChange, handleChange_fieldValue.
  by rewrite Hty, Hne, Hthrow.
Qed.

Lemma handleChange_invalid_date_throws_witness :
  let opts := username_form cb_noop in
  run (handleChange sample_host opts (initialState opts)
         (mkTarget "birthDate" "31/31/2024" "date" false None))
      (initialState opts)
  = (Throw (new_Error "Invalid time value"), mkWorld (initialState opts) []).
Proof.
  cbn zeta.
  apply (handleChange_invalid_date_throws sample_host (username_form cb_noop)
           (initialState (username_form cb_noop))
           (mkTarget "birthDate" "31/31/2024" "date" false None)
           (mkWorld (initialState (username_form cb_noop)) [])
           (new_Error "Invalid time value")).
  - reflexivity.
  - discriminate.
  - reflexivity.
Defined.

(** X8: a [date] change stores null for an empty raw text, and otherwise
    the ISO timestamp the engine gives for the raw text. *)
Theorem handleChange_date_value (host : Host) (opts : UseFormOptions)
    (render : FormState) (target : Target) (w : World) :
  target_type target = "date" →
  (target_value target = "" →
   values (state (handleChange host opts render target w).2) !! target_name target
   = Some VNull)
  ∧ (∀ iso, target_value target ≠ "" →
       Date_toISOString host (target_value target) = Ok iso →
       values (state (handleChange host opts render target w).2) !! target_name target
       = Some (VString iso)).
Proof.
  intros Hty. split.
  - intros Hempty.
    rewrite (handleChange_world host opts render target w VNull).
    + cbn. by rewrite lookup_insert_eq.
    + unfold handleChange_fieldValue. by rewrite Hty, Hempty.
  - intros iso Hne Hiso. apply String.eqb_neq in Hne.
    rewrite (handleChange_world host opts render target w (VString iso)).
    + cbn. by rewrite lookup_insert_eq.
    + unfold handleChange_fieldValue. by rewrite Hty, Hne, Hiso.
Qed.

Lemma handleChange_date_value_witness :
  let opts := username_form cb_noop in
  values (state (run (handleChange sample_host opts (initialState opts)
                        (mkTarget "birthDate" "2024-01-15" "date" false None))
                     (initialState opts)).2) !! "birthDate"
  = Some (VString "2024-01-15T00:00:00.000Z").
Proof.
  cbn zeta.
  apply (proj2 (handleChange_date_value sample_host (username_form cb_noop)
                  (initialState (username_form cb_noop))
                  (mkTarget "birthDate" "2024-01-15" "date" false None)
                  (mkWorld (initialState (username_form cb_noop)) [])
                  eq_refl)
               "2024-01-15T00:00:00.000Z").
  - discriminate.
  - reflexivity.
Defined.

(** X9: a [checkbox] change stores the checked state whatever the raw
    text is, and a change of any kind other than [file], [checkbox], [date]
    and [number] stores the raw text as it is. *)
Theorem handleChange_checkbox_and_text_value (host : Host) (opts : UseFormOptions)
    (render : FormState) (target : Target) (w : World) :
  (target_type target = "checkbox" →
   values (state (handleChange host opts render target w).2) !! target_name target
   = Some (VBool (target_checked target)))
  ∧ (target_type target ≠ "file" → target_type target ≠ "checkbox" →
     target_type target ≠ "date" → target_type target ≠ "number" →
     values (state (handleChange host opts render target w).2) !! target_name target
     = Some (VString (target_value target))).
Proof.
  split.
  - intros Hty.
    rewrite (handleChange_world host opts render target w
               (VBool (target_checked target))).
    + cbn. by rewrite lookup_insert_eq.
    + unfold handleChange_fieldValue. by rewrite Hty.
  - intros Hf Hc Hd Hn. apply String.eqb_neq in Hf, Hc, Hd, Hn.
    rewrite (handleChange_world host opts render target w
               (VString (target_value target))).
    + cbn. by rewrite lookup_insert_eq.
    + unfold handleChange_fieldValue. by rewrite Hf, Hc, Hd, Hn.
Qed.

Lemma handleChange_checkbox_and_text_value_witness :
  let opts := username_form cb_noop in
  values (state (run (handleChange sample_host opts (initialState opts)
                        (mkTarget "gender" "female" "radio" false None))
                     (initialState opts)).2) !! "gender"
  = Some (VString "female").
Proof.
  cbn zeta.
  apply (proj2 (handleChange_checkbox_and_text_value sample_host
                  (username_form cb_noop) (initialState (username_form cb_noop))
                  (mkTarget "gender" "female" "radio" false None)
                  (mkWorld (initialState (username_form cb_noop)) [])));
    discriminate.
Defined.

(** X10: a change that does not throw marks its own field touched and
    leaves alone every other value, touched mark and error, the submitting
    flag and the call log; with [validateOnChange] off it leaves [errors]
    as it was. *)
Theorem handleChange_frame (host : Host) (opts : UseFormOptions)
    (render : FormState) (target : Target) (w : World) (fieldValue : Value) :
  handleChange_fieldValue host target = Ok fieldValue →
  let w' := (handleChange host opts render target w).2 in
  touched (state w') = <[ target_name target := true ]> (touched (state w))
  ∧ isSubmitting (state w') = isSubmitting (state w)
  ∧ submitted w' = submitted w
  ∧ (∀ k, k ≠ target_name target →
       values (state w') !! k = values (state w) !! k
       ∧ errors (state w') !! k = errors (state w) !! k)
  ∧ (validateOnChange opts = false → errors (state w') = errors (state w)).
Proof.
  intros Hv. cbn zeta. rewrite (handleChange_world _ _ _ _ _ _ Hv). cbn.
  repeat split; try done.
  - by rewrite lookup_insert_ne.
  - destruct (validateOnChange opts); [| done]. by rewrite lookup_insert_ne.
  - by intros ->.
Qed.

Lemma handleChange_frame_witness :
  let opts := mkOptions {[ "username" := VString "" ]} (Some required_username)
                        cb_noop false true in
  errors (state (run (handleChange sample_host opts (initialState opts)
                        (mkTarget "username" "" "text" false None))
                     (initialState opts)).2) = ∅.
Proof.
  cbn zeta.
  apply (handleChange_frame sample_host
           (mkOptions {[ "username" := VString "" ]} (Some required_username)
                      cb_noop false true)
           (initialState (mkOptions {[ "username" := VString "" ]}
                                    (Some required_username) cb_noop false true))
           (mkTarget "username" "" "text" false None)
           (mkWorld (initialState (mkOptions {[ "username" := VString "" ]}
                                    (Some required_username) cb_noop false true)) [])
           (VString "")).
  - reflexivity.
  - reflexivity.
Defined.

(** ** Blur and the point mutations *)

(** X11: a blur never throws and never changes a value or the submitting
    flag; it marks its field touched, and with [validateOnBlur] off it
    leaves [errors] as it was. *)
Theorem handleBlur_frame (opts : UseFormOptions) (render : FormState)
    (target : Target) (w : World) :
  let r := handleBlur opts render target w in
  r.1 = Ok tt
  ∧ values (state r.2) = values (state w)
  ∧ touched (state r.2) = <[ target_name target := true ]> (touched (state w))
  ∧ isSubmitting (state r.2) = isSubmitting (state w)
  ∧ submitted r.2 = submitted w
  ∧ (validateOnBlur opts = false → errors (state r.2) = errors (state w)).
Proof.
  cbn zeta. unfold handleBlur.
  destruct (validateOnBlur opts); run_setters; repeat split; done.
Qed.

Lemma handleBlur_frame_witness :
  let opts := mkOptions {[ "username" := VString "" ]} (Some required_username)
                        cb_noop true false in
  errors (state (run (handleBlur opts (initialState opts)
                        (mkTarget "username" "" "text" false None))
                     (initialState opts)).2) = ∅.
Proof.
  cbn zeta.
  apply (handleBlur_frame
           (mkOptions {[ "username" := VString "" ]} (Some required_username)
                      cb_noop true false)
           (initialState (mkOptions {[ "username" := VString "" ]}
                                    (Some required_username) cb_noop true false))
           (mkTarget "username" "" "text" false None)
           (mkWorld (initialState (mkOptions {[ "username" := VString "" ]}
                                    (Some required_username) cb_noop true false)) [])).
  reflexivity.
Defined.

(** X12: [setFieldValue(f, v)] stores [v] unchanged under [f], so reading
    [f] back gives [v]; it leaves the other values alone and, unlike a
    change notification, does not mark the field touched. *)
Theorem setFieldValue_round_trip (opts : UseFormOptions) (render : FormState)
    (field : string) (value : Value) (w : World) :
  let r := setFieldValue opts render field value w in
  r.1 = Ok tt
  ∧ get_value (values (state r.2)) field = value
  ∧ (∀ k, k ≠ field → values (state r.2) !! k = values (state w) !! k)
  ∧ touched (state r.2) = touched (state w).
Proof.
  cbn zeta. unfold setFieldValue, get_value, read.
  destruct (validateOnChange opts); run_setters;
    (split; [done |]; split; [by rewrite lookup_insert_eq |]; split; [| done];
     intros k Hk; by rewrite lookup_insert_ne).
Qed.

Lemma setFieldValue_round_trip_witness :
  let opts := username_form cb_noop in
  values (state (run (setFieldValue opts (initialState opts) "email" (VString "a@b.c"))
                     (initialState opts)).2) !! "username"
  = Some (VString "").
Proof.
  cbn zeta.
  apply (setFieldValue_round_trip (username_form cb_noop)
           (initialState (username_form cb_noop)) "email" (VString "a@b.c")
           (mkWorld (initialState (username_form cb_noop)) [])).
  discriminate.
Defined.

(** X13: point mutations of different fields commute: two [setFieldError]
    calls, or two [setFieldTouched] calls, on distinct fields leave the
    same state in either order. *)
Theorem point_mutations_commute (f1 f2 : string) (w : World) :
  f1 ≠ f2 →
  (∀ m1 m2,
     (setFieldError f1 m1 ;; setFieldError f2 m2) w
     = (setFieldError f2 m2 ;; setFieldError f1 m1) w)
  ∧ (∀ b1 b2,
       (setFieldTouched f1 b1 ;; setFieldTouched f2 b2) w
       = (setFieldTouched f2 b2 ;; setFieldTouched f1 b1) w).
Proof.
  intros Hne. split; intros x1 x2; unfold setFieldError, setFieldTouched;
    run_setters; by rewrite insert_insert_ne.
Qed.

Lemma point_mutations_commute_witness :
  let w := mkWorld (initialState (username_form cb_noop)) [] in
  (setFieldError "email" "Taken" ;; setFieldError "username" "Too short") w
  = (setFieldError "username" "Too short" ;; setFieldError "email" "Taken") w.
Proof.
  cbn zeta.
  apply (proj1 (point_mutations_commute "email" "username"
                  (mkWorld (initialState (username_form cb_noop)) [])
                  ltac:(discriminate))).
Defined.

(** ** More on the submission sequencer *)

(** X14: a submit attempt returns exactly when validation reports
    something or the callback returns, and then [isSubmitting] is false,
    also when the callback called [setSubmitting(true)]. *)
Theorem handleSubmit_returns_iff (opts : UseFormOptions) (render : FormState)
    (w : World) :
  ((handleSubmit opts render w).1 = Ok tt
   ↔ validateForm (validationSchema opts) (values render) ≠ ∅
     ∨ cb_result (onSubmit opts (values render)) = Ok tt)
  ∧ ((handleSubmit opts render w).1 = Ok tt →
     isSubmitting (state (handleSubmit opts render w).2) = false).
Proof.
  split; [| apply handleSubmit_returns_idle].
  destruct (decide (validateForm (validationSchema opts) (values render) = ∅))
    as [Hve | Hne].
  - rewrite handleSubmit_valid by done. cbn zeta.
    destruct (cb_result _) as [[] | e]; cbn; split; try done.
    + by right.
    + by intros [? | ?].
  - rewrite handleSubmit_invalid by done. cbn. split; [by left | done].
Qed.

Lemma handleSubmit_returns_iff_witness :
  let opts := username_form (fun _ => mkRun [CallSetSubmitting true] (Ok tt)) in
  isSubmitting (state (run (handleSubmit opts (initialState opts))
                           (initialState opts)).2) = false.
Proof.
  cbn zeta.
  apply (handleSubmit_returns_iff
           (username_form (fun _ => mkRun [CallSetSubmitting true] (Ok tt)))
           (initialState (username_form (fun _ => mkRun [CallSetSubmitting true] (Ok tt))))
           (mkWorld (initialState
                       (username_form (fun _ => mkRun [CallSetSubmitting true] (Ok tt))))
                    [])).
  vm_compute. reflexivity.
Defined.

(** The state after a validated submit whose callback resets and returns. *)
Lemma handleSubmit_valid_reset_state
    (opts : UseFormOptions) (render : FormState) (w : World) :
  validateForm (validationSchema opts) (values render) = ∅ →
  forallb handed (cb_actions (onSubmit opts (values render))) = true →
  calls_resetForm (cb_actions (onSubmit opts (values render))) = true →
  cb_result (onSubmit opts (values render)) = Ok tt →
  state (handleSubmit opts render w).2 = initialState opts.
Proof.
  intros Hve Hhanded Hreset Hret.
  rewrite handleSubmit_valid by done. cbn zeta. rewrite Hret. cbn.
  destruct (perform_all_handed opts render (cb_actions (onSubmit opts (values render)))
              (before_callback opts render w) Hhanded) as (-> & -> & ->).
  by rewrite Hreset.
Qed.

(** X15: when validation passes and the callback, acting through the two
    capabilities it is handed, calls [resetForm()] and returns, the attempt
    ends in the initial state of the form, whatever the state before and
    whatever else the callback did with [setSubmitting]. *)
Theorem handleSubmit_reset_callback_restores_initial
    (opts : UseFormOptions) (render : FormState) (w : World) :
  validateForm (validationSchema opts) (values render) = ∅ →
  forallb handed (cb_actions (onSubmit opts (values render))) = true →
  calls_resetForm (cb_actions (onSubmit opts (values render))) = true →
  cb_result (onSubmit opts (values render)) = Ok tt →
  state (handleSubmit opts render w).2 = initialState opts.
Proof. apply handleSubmit_valid_reset_state. Qed.

Lemma handleSubmit_reset_callback_restores_initial_witness :
  let opts := username_form cb_reset in
  let w := (run (setFieldValue opts (initialState opts) "username" (VString "alice"))
                (initialState opts)).2 in
  state (handleSubmit opts (state w) w).2 = initialState opts.
Proof.
  cbn zeta.
  apply (handleSubmit_reset_callback_restores_initial (username_form cb_reset));
    reflexivity.
Defined.

(** X16: when validation fails, or the only calls the callback makes on
    the form are [setSubmitting] and [setFieldError], a submit attempt
    leaves the values as they were and replaces [touched] by the declared
    fields: a mark on a name that is no key of the initial values is
    dropped. *)
Theorem handleSubmit_without_reset (opts : UseFormOptions) (render : FormState)
    (w : World) :
  validateForm (validationSchema opts) (values render) ≠ ∅
  ∨ forallb keeps_values_and_touched (cb_actions (onSubmit opts (values render)))
    = true →
  values (state (handleSubmit opts render w).2) = values (state w)
  ∧ (∀ k, k ∉ dom (initialValues opts) →
       touched (state (handleSubmit opts render w).2) !! k = None).
Proof.
  intros Hcase.
  assert (Hall : ∀ k, k ∉ dom (initialValues opts) → all_touched opts !! k = None).
  { intros k Hk. by rewrite all_touched_lookup, bool_decide_eq_false_2. }
  destruct (decide (validateForm (validationSchema opts) (values render) = ∅))
    as [Hve | Hne].
  - destruct Hcase as [? | Hkeeps]; [done |].
    rewrite handleSubmit_valid by done. cbn zeta.
    pose proof (perform_all_keeps_values opts render
                  (cb_actions (onSubmit opts (values render)))
                  (before_callback opts render w) Hkeeps) as Hvals.
    assert (Hkt : forallb keeps_touched (cb_actions (onSubmit opts (values render)))
                  = true).
    { clear Hvals. induction (cb_actions _) as [| a acts IH]; [done |].
      cbn [forallb] in *. apply andb_prop in Hkeeps as [Ha Hacts].
      rewrite (IH Hacts), andb_true_r. by destruct a. }
    pose proof (perform_all_keeps_touched opts render
                  (cb_actions (onSubmit opts (values render)))
                  (before_callback opts render w) Hkt) as Ht.
    destruct (cb_result _); cbn; rewrite Ht, Hvals; split; auto.
  - rewrite handleSubmit_invalid by done. cbn. split; auto.
Qed.

Lemma handleSubmit_without_reset_witness :
  let opts := username_form cb_server_error in
  let w := (run (setFieldTouched "nickname" true) (initialState opts)).2 in
  touched (state w) !! "nickname" = Some true
  ∧ touched (state (handleSubmit opts (state w) w).2) !! "nickname" = None.
Proof.
  cbn zeta. split; [reflexivity |].
  apply (handleSubmit_without_reset (username_form cb_server_error)).
  - right. reflexivity.
  - apply not_elem_of_dom. reflexivity.
Defined.

(** X17: when validation passes and the callback throws without having
    made a call on the form, the attempt throws the same value and stops
    there: the callback was called once, [errors] is empty, every declared
    field is touched, the values are unchanged and [isSubmitting] is true. *)
Theorem handleSubmit_callback_throw (opts : UseFormOptions) (render : FormState)
    (w : World) (e : Thrown) :
  validateForm (validationSchema opts) (values render) = ∅ →
  cb_actions (onSubmit opts (values render)) = [] →
  cb_result (onSubmit opts (values render)) = Throw e →
  handleSubmit opts render w
  = (Throw e,
     mkWorld (mkFormState (values (state w)) ∅ (all_touched opts) true)
             (submitted w ++ [values render])).
Proof.
  intros Hve Hacts Hthrow.
  rewrite handleSubmit_valid by done. cbn zeta. by rewrite Hacts, Hthrow.
Qed.

Lemma handleSubmit_callback_throw_witness :
  let opts := username_form cb_fail in
  run (handleSubmit opts (initialState opts)) (initialState opts)
  = (Throw (new_Error "Request failed"),
     mkWorld (mkFormState (initialValues opts) ∅ (all_touched opts) true)
             [initialValues opts]).
Proof.
  cbn zeta.
  apply (handleSubmit_callback_throw (username_form cb_fail)
           (initialState (username_form cb_fail))
           (mkWorld (initialState (username_form cb_fail)) [])
           (new_Error "Request failed")); reflexivity.
Defined.

(** ** What [getFieldProps] shows after a change *)

(** X18: after a [checkbox] change, [getFieldProps(name, "checkbox")] on
    the new state has [checked] equal to the box's state.  After a [radio]
    change, which stores the option's raw text, [getFieldProps(name,
    "radio")] has [checked] true for any non-empty option text. *)
Theorem getFieldProps_checked_after_change
    (host : Host) (display : Display) (opts : UseFormOptions)
    (render : FormState) (target : Target) (w : World) :
  let st' := state (handleChange host opts render target w).2 in
  (target_type target = "checkbox" →
   ∃ p, getFieldProps host display opts st' (target_name target) "checkbox" = Ok p
        ∧ input_checked (inputProps p) = Some (target_checked target))
  ∧ (target_type target = "radio" →
     ∃ p, getFieldProps host display opts st' (target_name target) "radio" = Ok p
          ∧ input_checked (inputProps p)
            = Some (negb (String.eqb (target_value target) ""))).
Proof.
  cbn zeta. split; intros Hty.
  - rewrite (handleChange_world host opts render target w
               (VBool (target_checked target)))
      by (unfold handleChange_fieldValue; by rewrite Hty).
    eexists. split; [reflexivity |].
    cbn. unfold get_value, read. by rewrite lookup_insert_eq.
  - rewrite (handleChange_world host opts render target w
               (VString (target_value target)))
      by (unfold handleChange_fieldValue; by rewrite Hty).
    eexists. split; [reflexivity |].
    cbn. unfold get_value, read. by rewrite lookup_insert_eq.
Qed.

Lemma getFieldProps_checked_after_change_witness :
  let opts := username_form cb_noop in
  let st' := state (run (handleChange sample_host opts (initialState opts)
                           (mkTarget "gender" "female" "radio" false None))
                        (initialState opts)).2 in
  ∃ p, getFieldProps sample_host sample_display opts st' "gender" "radio" = Ok p
       ∧ input_checked (inputProps p) = Some true.
Proof.
  cbn zeta.
  apply (proj2 (getFieldProps_checked_after_change sample_host sample_display
                  (username_form cb_noop) (initialState (username_form cb_noop))
                  (mkTarget "gender" "female" "radio" false None)
                  (mkWorld (initialState (username_form cb_noop)) []))).
  reflexivity.
Defined.

(** X19: a text-like change round-trips through the display: for a kind
    that neither side treats specially, [getFieldProps(name, kind)] on the
    new state shows the raw text that was typed. *)
Theorem getFieldProps_text_round_trip
    (host : Host) (display : Display) (opts : UseFormOptions)
    (render : FormState) (target : Target) (w : World) :
  target_type target ≠ "file" → target_type target ≠ "checkbox" →
  target_type target ≠ "radio" → target_type target ≠ "date" →
  target_type target ≠ "number" →
  ∃ p, getFieldProps host display opts
         (state (handleChange host opts render target w).2)
         (target_name target) (target_type target) = Ok p
       ∧ input_value (inputProps p) = Some (target_value target).
Proof.
  intros Hf Hc Hr Hd Hn. apply String.eqb_neq in Hf, Hc, Hr, Hd, Hn.
  rewrite (handleChange_world host opts render target w
             (VString (target_value target)))
    by (unfold handleChange_fieldValue; by rewrite Hf, Hc, Hd, Hn).
  unfold getFieldProps. rewrite Hf, Hc, Hr, Hd. cbn.
  eexists. split; [reflexivity |].
  cbn. unfold get_value, read. by rewrite lookup_insert_eq.
Qed.

Lemma getFieldProps_text_round_trip_witness :
  let opts := username_form cb_noop in
  ∃ p, getFieldProps sample_host sample_display opts
         (state (run (handleChange sample_host opts (initialState opts)
                        (mkTarget "username" "alice" "text" false None))
                     (initialState opts)).2)
         "username" "text" = Ok p
       ∧ input_value (inputProps p) = Some "alice".
Proof.
  cbn zeta.
  apply (getFieldProps_text_round_trip sample_host sample_display
           (username_form cb_noop) (initialState (username_form cb_noop))
           (mkTarget "username" "alice" "text" false None)
           (mkWorld (initialState (username_form cb_noop)) []));
    discriminate.
Defined.

(** X20: after a [number] change, [getFieldProps(name, "number")] shows
    the empty text when the raw text was empty (null is stored), and
    otherwise the text of the stored number. *)
Theorem getFieldProps_number_after_change
    (host : Host) (display : Display) (opts : UseFormOptions)
    (render : FormState) (target : Target) (w : World) :
  target_type target = "number" →
  ∃ p, getFieldProps host display opts
         (state (handleChange host opts render target w).2)
         (target_name target) "number" = Ok p
       ∧ input_value (inputProps p)
         = Some (if String.eqb (target_value target) "" then ""
                 else String_of_number display (Number host (target_value target))).
Proof.
  intros Hty.
  rewrite (handleChange_world host opts render target w
             (if String.eqb (target_value target) "" then VNull
              else VNumber (Number host (target_value target))))
    by (unfold handleChange_fieldValue; by rewrite Hty).
  eexists. split; [reflexivity |].
  cbn. unfold get_value, read. rewrite lookup_insert_eq. cbn.
  by destruct (String.eqb (target_value target) "").
Qed.

Lemma getFieldProps_number_after_change_witness :
  let opts := username_form cb_noop in
  ∃ p, getFieldProps sample_host sample_display opts
         (state (run (handleChange sample_host opts (initialState opts)
                        (mkTarget "age" "abc" "number" false None))
                     (initialState opts)).2)
         "age" "number" = Ok p
       ∧ input_value (inputProps p) = Some "NaN".
Proof.
  cbn zeta.
  apply (getFieldProps_number_after_change sample_host sample_display
           (username_form cb_noop) (initialState (username_form cb_noop))
           (mkTarget "age" "abc" "number" false None)
           (mkWorld (initialState (username_form cb_noop)) [])).
  reflexivity.
Defined.

(** The values [setFieldValue] leaves. *)
Lemma setFieldValue_values (opts : UseFormOptions) (render : FormState)
    (field : string) (value : Value) (w : World) :
  values (state (setFieldValue opts render field value w).2)
  = <[ field := value ]> (values (state w)).
Proof. unfold setFieldValue. destruct (validateOnChange opts); by run_setters. Qed.

(** X21: [getFieldProps(f, "date")] throws on a stored text that is no
    valid date: after [setFieldValue(f, s)] with such a non-empty [s], the
    next call for [f] throws the engine's error instead of returning props. *)
Theorem getFieldProps_date_throws_after_setFieldValue
    (host : Host) (display : Display) (opts : UseFormOptions)
    (render : FormState) (field : string) (s : string) (w : World) (e : Thrown) :
  s ≠ "" →
  Date_toISOString host s = Throw e →
  getFieldProps host display opts
    (state (setFieldValue opts render field (VString s) w).2) field "date"
  = Throw e.
Proof.
  intros Hne Hthrow. apply String.eqb_neq in Hne.
  unfold getFieldProps, get_value, read. rewrite setFieldValue_values, lookup_insert_eq.
  cbn. by rewrite Hne, Hthrow.
Qed.

Lemma getFieldProps_date_throws_after_setFieldValue_witness :
  let opts := username_form cb_noop in
  getFieldProps sample_host sample_display opts
    (state (run (setFieldValue opts (initialState opts) "birthDate" (VString "soon"))
                (initialState opts)).2) "birthDate" "date"
  = Throw (new_Error "Invalid time value").
Proof.
  cbn zeta.
  apply (getFieldProps_date_throws_after_setFieldValue sample_host sample_display
           (username_form cb_noop) (initialState (username_form cb_noop))
           "birthDate" "soon" (mkWorld (initialState (username_form cb_noop)) [])
           (new_Error "Invalid time value")).
  - discriminate.
  - reflexivity.
Defined.

(** X22: a [date] change round-trips through the display: when the engine
    reads the stored timestamp back as itself, [getFieldProps(name,
    "date")] shows its part before the ["T"]; after an empty raw text it
    shows the empty text. *)
Theorem getFieldProps_date_after_change
    (host : Host) (display : Display) (opts : UseFormOptions)
    (render : FormState) (target : Target) (w : World) :
  target_type target = "date" →
  let st' := state (handleChange host opts render target w).2 in
  (target_value target = "" →
   ∃ p, getFieldProps host display opts st' (target_name target) "date" = Ok p
        ∧ input_value (inputProps p) = Some "")
  ∧ (∀ iso, target_value target ≠ "" → iso ≠ "" →
       Date_toISOString host (target_value target) = Ok iso →
       Date_toISOString host iso = Ok iso →
       ∃ p, getFieldProps host display opts st' (target_name target) "date" = Ok p
            ∧ input_value (inputProps p) = Some (before_T iso)).
Proof.
  intros Hty. cbn zeta. split.
  - intros Hempty.
    rewrite (handleChange_world host opts render target w VNull)
      by (unfold handleChange_fieldValue; by rewrite Hty, Hempty).
    unfold getFieldProps, get_value, read. cbn. rewrite lookup_insert_eq. cbn.
    eexists. split; reflexivity.
  - intros iso Hraw Hiso Hdate Hback. apply String.eqb_neq in Hraw, Hiso.
    rewrite (handleChange_world host opts render target w (VString iso))
      by (unfold handleChange_fieldValue; by rewrite Hty, Hraw, Hdate).
    unfold getFieldProps, get_value, read. cbn. rewrite lookup_insert_eq. cbn.
    rewrite Hiso, Hback. cbn.
    eexists. split; reflexivity.
Qed.

Lemma getFieldProps_date_after_change_witness :
  let opts := username_form cb_noop in
  ∃ p, getFieldProps calendar_host sample_display opts
         (state (run (handleChange calendar_host opts (initialState opts)
                        (mkTarget "birthDate" "2024-01-15" "date" false None))
                     (initialState opts)).2)
         "birthDate" "date" = Ok p
       ∧ input_value (inputProps p) = Some "2024-01-15".
Proof.
  cbn zeta.
  apply (proj2 (getFieldProps_date_after_change calendar_host sample_display
                  (username_form cb_noop) (initialState (username_form cb_noop))
                  (mkTarget "birthDate" "2024-01-15" "date" false None)
                  (mkWorld (initialState (username_form cb_noop)) []) eq_refl)
               "2024-01-15T00:00:00.000Z").
  - discriminate.
  - discriminate.
  - reflexivity.
  - reflexivity.
Defined.

(** X23: whatever the kind, the props [getFieldProps] returns carry the
    field's name and the kind, and a [meta] holding what the reads
    [errors[field]] and [touched[field]] of the state find: the own entry
    when there is one, else the property of [Object.prototype] of that
    name when there is one, else nothing; a [file] input is never given a
    value, whatever is stored for it. *)
Theorem getFieldProps_meta (host : Host) (display : Display) (opts : UseFormOptions)
    (render : FormState) (field type : string) (p : FieldProps) :
  getFieldProps host display opts render field type = Ok p →
  input_name (inputProps p) = field
  ∧ input_type (inputProps p) = type
  ∧ meta_error (meta p)
    = match errors render !! field with
      | Some m => Got m
      | None => if bool_decide (field ∈ Object_prototype_keys)
                then Inherited field else Undefined
      end
  ∧ meta_touched (meta p)
    = match touched render !! field with
      | Some b => Got b
      | None => if bool_decide (field ∈ Object_prototype_keys)
                then Inherited field else Undefined
      end
  ∧ (type = "file" → input_value (inputProps p) = None).
Proof.
  unfold getFieldProps.
  destruct (String.eqb type "checkbox" || String.eqb type "radio") eqn:Hcr.
  { intros [= <-]. cbn. repeat split; try done. }
  destruct (String.eqb type "file") eqn:Hf.
  { by intros [= <-]. }
  assert (Hnf : type = "file" → ∀ v : option string, v = None).
  { intros ->. cbn in Hf. discriminate. }
  destruct (String.eqb type "date").
  - destruct (truthy_value _).
    + destruct (Date_value_toISOString _ _ _); [| done].
      intros [= <-]. cbn. repeat split; auto.
    + intros [= <-]. cbn. repeat split; auto.
  - intros [= <-]. cbn. repeat split; auto.
Qed.

Lemma getFieldProps_meta_witness :
  let opts := required_form cb_noop in
  let st := state (run (setFieldValue opts (initialState opts) "avatar"
                          (VFile (mkFile "me.png")))
                       (initialState opts)).2 in
  ∃ p, getFieldProps sample_host sample_display opts st "avatar" "file" = Ok p
       ∧ input_value (inputProps p) = None
       ∧ meta_touched (meta p) = Undefined.
Proof.
  cbn zeta. eexists. split; [reflexivity |].
  match goal with
  | |- input_value (inputProps ?p) = None ∧ _ =>
      destruct (getFieldProps_meta sample_host sample_display (required_form cb_noop)
                  (state (run (setFieldValue (required_form cb_noop)
                                 (initialState (required_form cb_noop)) "avatar"
                                 (VFile (mkFile "me.png")))
                              (initialState (required_form cb_noop))).2)
                  "avatar" "file" p eq_refl) as (_ & _ & _ & Ht & Hv)
  end.
  split; [exact (Hv eq_refl) | exact Ht].
Defined.

(** The reads of a field named like a property of [Object.prototype]. *)
Example getFieldProps_inherited_meta :
  let opts := username_form cb_noop in
  ∃ p, getFieldProps sample_host sample_display opts (initialState opts)
         "toString" "checkbox" = Ok p
       ∧ meta_error (meta p) = Inherited "toString"
       ∧ meta_touched (meta p) = Inherited "toString"
       ∧ input_checked (inputProps p) = Some true.
Proof. cbn zeta. eexists. split; [reflexivity |]. by vm_compute. Qed.

(** ** The demo [App] *)

(** X24: in [App], whose [onSubmit] calls [resetForm()], a submit attempt
    on values the schema accepts leaves the form in its initial state:
    the six initial values, no errors, nothing touched, not submitting. *)
Theorem App_submit_clears_form (schema : ValidationSchema) (render : FormState)
    (w : World) :
  validateForm (Some schema) (values render) = ∅ →
  (handleSubmit (App_options schema) render w).1 = Ok tt
  ∧ state (handleSubmit (App_options schema) render w).2
    = initialState (App_options schema)
  ∧ submitted (handleSubmit (App_options schema) render w).2
    = (submitted w ++ [values render])%list.
Proof.
  intros Hve. split; [| split].
  - rewrite handleSubmit_valid by done. reflexivity.
  - by apply handleSubmit_valid_reset_state.
  - rewrite handleSubmit_valid by done. reflexivity.
Qed.

(** A schema that accepts every bag. *)
Definition accept_all : ValidationSchema :=
  YupSchema (fun _ _ => Ok tt) (fun _ => Ok tt).

Lemma App_submit_clears_form_witness :
  let opts := App_options accept_all in
  let w := (run (handleChange sample_host opts (initialState opts)
                   (mkTarget "username" "alice" "text" false None))
                (initialState opts)).2 in
  (handleSubmit opts (state w) w).1 = Ok tt
  ∧ state (handleSubmit opts (state w) w).2 = initialState opts
  ∧ submitted (handleSubmit opts (state w) w).2 = [values (state w)].
Proof.
  cbn zeta.
  apply (App_submit_clears_form accept_all).
  reflexivity.
Defined.

(** X25: after a submit attempt that validation rejects, what a form
    like [App] renders under a key that is not named like a property of
    [Object.prototype] is a [span] with the non-empty message
    [validateForm()] reported for it when the key is a declared field, and
    nothing otherwise: the message of a key that is no declared field (a
    nested path, say) is not rendered, although the key took part in
    blocking the submit. *)
Theorem App_error_shown_after_failed_submit
    (opts : UseFormOptions) (render : FormState) (w : World) (k : string) :
  validateForm (validationSchema opts) (values render) ≠ ∅ →
  k ∉ Object_prototype_keys →
  App_error_shown (state (handleSubmit opts render w).2) k
  = match validateForm (validationSchema opts) (values render) !! k with
    | Some m =>
        if bool_decide (k ∈ dom (initialValues opts)) && truthy m
        then RenderSpan (Got m) else RenderNothing
    | None => RenderNothing
    end.
Proof.
  intros Hne Hk. rewrite handleSubmit_invalid by done.
  unfold App_error_shown, read. cbn. rewrite all_touched_lookup.
  rewrite (bool_decide_eq_false_2 _ Hk).
  case_bool_decide; cbn;
    destruct (validateForm _ _ !! k) as [m |]; cbn; try done;
    by rewrite andb_false_r.
Qed.

(** An [App]-like form whose zod schema rejects a nested field. *)
Definition nested_form : UseFormOptions :=
  mkOptions {[ "username" := VString "" ]}
    (Some (ZodSchema (fun _ =>
       Throw (new_ZodError "[...]"
                [mkIssue [PKey "address"; PKey "city"] "City is required"]))))
    cb_noop true true.

Lemma App_error_shown_after_failed_submit_witness :
  let r := run (handleSubmit nested_form (initialState nested_form))
               (initialState nested_form) in
  App_error_shown (state r.2) "address" = RenderNothing.
Proof.
  cbn zeta.
  apply (App_error_shown_after_failed_submit nested_form (initialState nested_form)
           (mkWorld (initialState nested_form) []) "address").
  - vm_compute. discriminate.
  - unfold Object_prototype_keys. rewrite !elem_of_cons, elem_of_nil.
    intros H. repeat destruct H as [H | H]; try discriminate H. done.
Defined.
